(** * nvidia-container-toolkit: the CDI modifier and the containerd config engine

    A shallow embedding of
    - [internal/modifier/cdi.go]: [NewCDIModifier], [getDevicesFromSpec] and
      [cdiModifier.Modify];
    - [internal/config/engine/containerd]: the config builder, [loadConfig] and
      [Config.parseVersion];
    - the V1 containerd config migrator exercised by [config_v1_test.go]
      ([UpdateConfig], [RevertConfig]).

    Go slices are lists (the nil slice and the empty slice are both [[]]), Go
    maps are finite maps, a Go [(value, error)] pair is a sum, and the calls to
    collaborators and to the logger are recorded in a trace. *)

From Stdlib Require Import ZArith Lia.
From stdpp Require Import base option list strings gmap.

Set Warnings "-register-all".

(** ** TOML documents ([github.com/pelletier/go-toml], as the engine uses it) *)

Module toml.

(** What [Tree.Get] can hand back for a key: a scalar, an array, or a
    sub-table. Arrays of tables are not modelled: the engine's paths never
    cross one. *)
Inductive value : Type :=
| VString (s : string)
| VInt (z : Z)             (* int64 *)
| VBool (b : bool)
| VList (l : list value)
| VTree (t : gmap string value).

Abbreviation Tree := (gmap string value).

Definition asTree (v : value) : Tree :=
  match v with VTree t => t | _ => ∅ end.

(** [Tree.Keys] *)
Definition Keys (t : Tree) : list string := (map_to_list t).*1.

(** Walking down a path of keys from a value: only tables can be entered. *)
Fixpoint getv (p : list string) (v : value) : option value :=
  match p with
  | [] => Some v
  | k :: p' =>
      match v with
      | VTree s => match s !! k with Some c => getv p' c | None => None end
      | _ => None
      end
  end.

(** Writing [x] at a path: missing tables on the way are created, and a
    scalar that stands where a table is needed gives way to a new table. *)
Fixpoint setv (p : list string) (x : value) (v : value) : value :=
  match p with
  | [] => x
  | k :: p' =>
      VTree (<[k := setv p' x (default (VTree ∅) (asTree v !! k))]> (asTree v))
  end.

(** Deleting the key a path ends in; a path that does not exist changes
    nothing. *)
Fixpoint delv (p : list string) (v : value) : value :=
  match p with
  | [] => v
  | [k] => match v with VTree s => VTree (delete k s) | _ => v end
  | k :: p' =>
      match v with
      | VTree s =>
          match s !! k with
          | Some c => VTree (<[k := delv p' c]> s)
          | None => v
          end
      | _ => v
      end
  end.

(** [Tree.Get] for a key with no dot in it, and [Tree.GetPath]. [None] is
    Go's nil. *)
Definition Get (key : string) (t : Tree) : option value := t !! key.
Definition GetPath (keys : list string) (t : Tree) : option value := getv keys (VTree t).
Definition SetPath (keys : list string) (x : value) (t : Tree) : Tree :=
  asTree (setv keys x (VTree t)).
Definition DeletePath (keys : list string) (t : Tree) : Tree :=
  asTree (delv keys (VTree t)).

End toml.

(** ** Go errors *)

Inductive error : Type :=
| ErrorString (msg : string)                 (* an error carrying a message *)
| ErrorWrap (context : string) (cause : error) (* fmt.Errorf("<context>: %v", err) *)
| ErrorValue (context : string) (v : toml.value).   (* fmt.Errorf("<context>: %v", v) *)

(** ** Package [config] (declarations used by the modifier) *)

Module config.

Record CDIModeConfig := {
  SpecDirs : list string;
  DefaultKind : string
}.

Record ModesConfig := { CDI : CDIModeConfig }.

Record RuntimeConfig := { Modes : ModesConfig }.

Record Config := {
  AcceptEnvvarUnprivileged : bool;
  NVIDIAContainerRuntimeConfig : RuntimeConfig
}.

End config.

(** ** Package [modifier] *)

Module modifier.
Import config.

(** The messages handed to the logger, by call site. *)
Inductive message : Type :=
| NoDevicesRequested                         (* cdi.go:45 *)
| CreatingModifier (devices : list string)   (* cdi.go:48 *)
| IgnoringDuplicate (name : string)          (* cdi.go:91 *)
| IgnoringEnvvarDevices (devices : list string) (* cdi.go:105 *)
| RefreshFailed (err : error)                (* cdi.go:117 *)
| InjectingDevices (devices : list string).  (* cdi.go:120 *)

(** What a run does to the outside, in order: collaborator calls and log
    lines. *)
Inductive event : Type :=
| CallLoad
| CallParseAnnotations
| CallNewCUDAImageFromSpec
| CallDevicesFromEnvvars (envvar : string)
| CallIsPrivileged
| CallGetRegistry (specDirs : list string) (autoRefresh : bool)
| CallRefresh
| CallInjectDevices (devices : list string)
| Debugf (m : message)
| Warningf (m : message).

(** A computation: the trace it leaves and the Go [(value, error)] pair. *)
Definition M (A : Type) : Type := list event * (error + A).

Definition ret {A} (a : A) : M A := ([], inr a).

Definition bind {A B} (m : M A) (k : A -> M B) : M B :=
  match m with
  | (tr, inl e) => (tr, inl e)
  | (tr, inr a) => (tr ++ (k a).1, (k a).2)
  end.

Definition log (e : event) : M unit := ([e], inr tt).

(** A collaborator call with its outcome. *)
Definition call {A} (e : event) (r : error + A) : M A := ([e], r).

(** [if err != nil { return nil, fmt.Errorf("<context>: %v", err) }] *)
Definition wrap {A} (context : string) (m : M A) : M A :=
  match m with
  | (tr, inl e) => (tr, inl (ErrorWrap context e))
  | (tr, inr a) => (tr, inr a)
  end.

Notation "'let*' x ':=' m 'in' k" := (bind m (fun x => k))
  (at level 10, x name, m at level 200, k at level 200, only parsing).
Notation "m ';;' k" := (bind m (fun _ => k))
  (at level 100, k at level 200, right associativity, only parsing).

Definition trace {A} (m : M A) : list event := m.1.
Definition outcome {A} (m : M A) : error + A := m.2.

(** The collaborators the modifier is written against: the OCI spec
    ([oci.Spec] and [specs.Spec]), package [image], and the CDI library
    ([cdi.ParseAnnotations], [cdi.IsQualifiedName], the registry). *)
Class Collaborators := {
  RawSpec : Type;                       (* specs.Spec *)
  Annotations : RawSpec -> gmap string string;
  CUDA : Type;                          (* image.CUDA *)
  NewCUDAImageFromSpec : RawSpec -> error + CUDA;
  (* container.DevicesFromEnvvars(envvar).List() *)
  DevicesFromEnvvars : CUDA -> string -> list string;
  IsPrivileged : RawSpec -> bool;
  (* cdi.ParseAnnotations: (keys, devices, err) *)
  ParseAnnotations : gmap string string -> error + (list string * list string);
  IsQualifiedName : string -> bool;
  Registry : Type;
  GetRegistry : list string -> bool -> Registry;
  Refresh : Registry -> Registry * option error;
  (* registry.InjectDevices(spec, devices...): the spec as it leaves, the
     unresolved devices, the error *)
  InjectDevices : Registry -> RawSpec -> list string -> RawSpec * (list string * option error);
  DefaultSpecDirs : list string         (* cdi.DefaultSpecDirs *)
}.

(** [oci.Spec]: only [Load] is used. *)
Record Spec `{Collaborators} := { Load : error + RawSpec }.

Definition visibleDevicesEnvvar : string := "NVIDIA_VISIBLE_DEVICES".

Record cdiModifier := {
  specDirs : list string;
  devices : list string
}.

Section Code.
Context `{Collaborators}.

(** cdi.go:87-89: a name that is not qualified gets the default kind. *)
Definition qualify (cfg : Config) (name : string) : string :=
  if IsQualifiedName name then name
  else DefaultKind (CDI (Modes (NVIDIAContainerRuntimeConfig cfg))) +:+ "=" +:+ name.

(** cdi.go:86-95, the loop over [envDevices.List()]. [seen] is read at
    line 90 and written nowhere, so it is passed on as it came. *)
Fixpoint envLoop (cfg : Config) (names : list string)
    (seen : gmap string bool) (devs : list string) : M (list string) :=
  match names with
  | [] => ret devs
  | name :: rest =>
      let name := qualify cfg name in
      if default false (seen !! name)
      then log (Debugf (IgnoringDuplicate name)) ;; envLoop cfg rest seen devs
      else envLoop cfg rest seen (devs ++ [name])
  end.

(** cdi.go:64-108 *)
Definition getDevicesFromSpec (ociSpec : Spec) (cfg : Config) : M (list string) :=
  let* rawSpec := wrap "failed to load OCI spec" (call CallLoad (Load ociSpec)) in
  let* parsed := wrap "failed to parse container annotations"
              (call CallParseAnnotations (ParseAnnotations (Annotations rawSpec))) in
  let annotationDevices := parsed.2 in
  if bool_decide (0 < length annotationDevices) then ret annotationDevices
  else
    let* container := call CallNewCUDAImageFromSpec (NewCUDAImageFromSpec rawSpec) in
    let* envDevices := call (CallDevicesFromEnvvars visibleDevicesEnvvar)
                    (inr (DevicesFromEnvvars container visibleDevicesEnvvar)) in
    let* devs := envLoop cfg envDevices ∅ [] in
    if bool_decide (length devs = 0) then ret []
    else if AcceptEnvvarUnprivileged cfg then ret devs
    else
      let* privileged := call CallIsPrivileged (inr (IsPrivileged rawSpec)) in
      if (privileged : bool) then ret devs
      else log (Warningf (IgnoringEnvvarDevices devs)) ;; ret [].

(** cdi.go:39-62. [None] is the nil modifier. *)
Definition NewCDIModifier (cfg : Config) (ociSpec : Spec) : M (option cdiModifier) :=
  let* devs := wrap "failed to get required devices from OCI specification"
            (getDevicesFromSpec ociSpec cfg) in
  if bool_decide (length devs = 0)
  then log (Debugf NoDevicesRequested) ;; ret None
  else
    log (Debugf (CreatingModifier devs)) ;;
    let dirs :=
      if bool_decide (0 < length (SpecDirs (CDI (Modes (NVIDIAContainerRuntimeConfig cfg)))))
      then SpecDirs (CDI (Modes (NVIDIAContainerRuntimeConfig cfg)))
      else DefaultSpecDirs in
    ret (Some {| specDirs := dirs; devices := devs |}).

(** cdi.go:111-127. The result is Go's [error]: [inl] an error, [inr] the
    spec as the injection left it. *)
Definition Modify (m : cdiModifier) (spec : RawSpec) : M RawSpec :=
  let* registry := call (CallGetRegistry (specDirs m) false)
                (inr (GetRegistry (specDirs m) false)) in
  let* refreshed := call CallRefresh (inr (Refresh registry)) in
  match refreshed.2 with
  | Some err => log (Debugf (RefreshFailed err))
  | None => ret tt
  end ;;
  log (Debugf (InjectingDevices (devices m))) ;;
  let* injected := call (CallInjectDevices (devices m))
                (inr (InjectDevices refreshed.1 spec (devices m))) in
  match injected.2.2 with
  | Some err => ([], inl (ErrorWrap "failed to inject CDI devices" err))
  | None => ret injected.1
  end.

End Code.

End modifier.

(** ** Package [os] (what [loadConfig] uses of it) *)

Module os.

(** The errors [os.Stat] can come back with, by the errno they wrap. *)
Inductive Errno : Type :=
| ENOENT | EEXIST | ENOTEMPTY | EACCES | ENOTDIR | ELOOP | EIO.

Record FileInfo := { IsDir : bool }.

(** [os.IsExist] and [os.IsNotExist]; both are false of the nil error. *)
Definition IsExist (err : option Errno) : bool :=
  match err with
  | Some EEXIST | Some ENOTEMPTY => true
  | _ => false
  end.

Definition IsNotExist (err : option Errno) : bool :=
  match err with
  | Some ENOENT => true
  | _ => false
  end.

(** The pair [os.Stat] returns. *)
Definition StatResult : Type := option FileInfo * option Errno.

(** [os.Stat]'s contract: a result and a nil error, or no result and an
    error. *)
Definition StatContract (r : StatResult) : Prop :=
  match r with
  | (Some _, None) | (None, Some _) => True
  | _ => False
  end.

End os.

(** A Go call either returns or panics (here: a method called on a nil
    interface value). *)
Inductive go (A : Type) : Type :=
| Returns (a : A)
| Panics.
Arguments Returns {A} a.
Arguments Panics {A}.

(** ** Package [containerd] (internal/config/engine/containerd) *)

Module containerd.
Import toml.

Definition defaultRuntimeType : string := "io.containerd.runc.v2".

Record builder := {
  path : string;
  runtimeType : string;
  useLegacyConfig : bool
}.

(** [Config]: the fields [build] and the tests set. *)
Record Config := {
  Tree : toml.Tree;
  RuntimeType : string;
  UseDefaultRuntimeName : bool
}.

(** [engine.Interface] as [build] returns it: the config converted to a
    pointer to ConfigV1, or the config itself. *)
Inductive Interface : Type :=
| ConfigV1 (c : Config)
| ConfigV2 (c : Config).

(** The file system and the TOML loader [loadConfig] runs against. *)
Class Host := {
  Stat : string -> os.StatResult;
  LoadFile : string -> error + toml.Tree
}.

Section Code.
Context `{Host}.

(** [os.IsExist(err) && info.IsDir()]: the right operand is evaluated
    only when the left one is true, and panics on a nil [info]. *)
Definition isExistingDir (st : os.StatResult) : go bool :=
  if os.IsExist st.2 then
    match st.1 with
    | Some info => Returns (os.IsDir info)
    | None => Panics
    end
  else Returns false.

(** The [Config] literal [loadConfig] returns: the other fields keep
    their zero values. *)
Definition newConfig (tomlConfig : toml.Tree) : Config :=
  {| Tree := tomlConfig; RuntimeType := ""; UseDefaultRuntimeName := false |}.

(** [loadConfig], with the lines it logs. *)
Definition loadConfig (config : string) : list string * go (error + Config) :=
  let st := Stat config in
  match isExistingDir st with
  | Panics => (["Loading config: " +:+ config], Panics)
  | Returns true =>
      (["Loading config: " +:+ config],
       Returns (inl (ErrorString "config file is a directory")))
  | Returns false =>
      let configFile := if os.IsNotExist st.2 then "/dev/null" else config in
      let notes :=
        if os.IsNotExist st.2
        then ["Config file does not exist, creating new one"] else [] in
      match LoadFile configFile with
      | inl err => (("Loading config: " +:+ config) :: notes, Returns (inl err))
      | inr tomlConfig =>
          (("Loading config: " +:+ config) :: notes ++ ["Successfully loaded config"],
           Returns (inr (newConfig tomlConfig)))
      end
  end.

(** [Config.parseVersion]: the pair [(int, error)]. [int(v)] is the
    identity on an int64 where int is 64 bits wide, as on every platform
    the toolkit is built for. *)
Definition parseVersion (c : Config) (useLegacyConfig : bool) : Z * option error :=
  let defaultVersion : Z := if useLegacyConfig then 1%Z else 2%Z in
  match Get "version" (Tree c) with
  | None =>
      match length (Keys (Tree c)) with
      | 0 => (defaultVersion, None)
      | _ => (1%Z, None)
      end
  | Some (VInt v) => (v, None)
  | Some v => ((-1)%Z, Some (ErrorValue "unsupported type for version field" v))
  end.

(** [builder.build] *)
Definition build (b : builder) : go (error + Interface) :=
  if bool_decide (path b = "") then Returns (inl (ErrorString "config path is empty"))
  else
    let runtimeType' :=
      if bool_decide (runtimeType b = "") then defaultRuntimeType else runtimeType b in
    match (loadConfig (path b)).2 with
    | Panics => Panics
    | Returns (inl err) => Returns (inl (ErrorWrap "failed to load config" err))
    | Returns (inr config) =>
        let config := {| Tree := Tree config; RuntimeType := runtimeType';
                         UseDefaultRuntimeName := negb (useLegacyConfig b) |} in
        match parseVersion config (useLegacyConfig b) with
        | (_, Some err) => Returns (inl (ErrorWrap "failed to parse config version" err))
        | (1%Z, None) => Returns (inr (ConfigV1 config))
        | (2%Z, None) => Returns (inr (ConfigV2 config))
        | (version, None) =>
            Returns (inl (ErrorValue "unsupported config version" (VInt version)))
        end
    end.

End Code.





End containerd.

(** ** The V1 config migrator ([UpdateConfig] and [RevertConfig] of the
    containerd tool, and [ConfigV1.AddRuntime] / [ConfigV1.RemoveRuntime])

    The functions are called by [config_v1_test.go]; their bodies are not
    among the sources. *)

Module migrator.
Import toml containerd.

(** The tool's options, as the tests fill them in. *)
Record options := {
  useLegacyConfig : bool;
  setAsDefault : bool;
  runtimeClass : string;
  runtimeType : string;
  runtimeDir : string
}.

(** A managed runtime: the name of its entry, the path of its binary, and
    whether it is the one to make the default. *)
Record Runtime := {
  name : string;
  Path : string;
  SetAsDefault : bool
}.

Definition defaultRuntimeName : string := "nvidia".

(** Modelled from the spec: the table of runtime modes, missing from the
    sources (section 9: "a static ordered table of (name-suffix,
    binary-suffix) pairs consumed by both Update and Revert", for
    "experimental/cdi/legacy"). *)
Definition modes : list string := ["experimental"; "cdi"; "legacy"].

Definition modeName (mode : string) : string := "nvidia-" +:+ mode.

(** Modelled from the spec: the runtimes a set of options configures, missing
    from the sources (section 4.4: "each configured runtime name/binary pair
    (nvidia, nvidia-experimental, nvidia-cdi, nvidia-legacy)", "missing/empty
    runtimeClass falls back to a base name"). The tests fix what the spec
    leaves open: a runtime class that is the name of a mode selects that
    mode's runtime and leaves the base entry named [nvidia]
    (TestUpdateV1Config, TestUpdateV1ConfigDefaultRuntime), and a binary is
    [<runtimeDir>/nvidia-container-runtime[.<mode>]]. *)
Definition GetRuntimes (o : options) : list Runtime :=
  let nvidiaRuntimeName :=
    if bool_decide (runtimeClass o = "") then defaultRuntimeName else runtimeClass o in
  let newRuntime (n binary : string) :=
    {| name := n;
       Path := runtimeDir o +:+ "/" +:+ binary;
       SetAsDefault := setAsDefault o && bool_decide (n = nvidiaRuntimeName) |} in
  let base :=
    if bool_decide (nvidiaRuntimeName ∈ modeName <$> modes)
    then defaultRuntimeName else nvidiaRuntimeName in
  newRuntime base "nvidia-container-runtime"
  :: ((λ mode, newRuntime (modeName mode) ("nvidia-container-runtime." +:+ mode)) <$> modes).

Definition containerdPath : list string := ["plugins"; "cri"; "containerd"].
Definition runtimesPath : list string := containerdPath ++ ["runtimes"].

(** The fields of an entry written where there is no [runc] entry to inherit
    from (TestUpdateV1Config). *)
Definition defaultEntry (runtimeType : string) : toml.Tree :=
  <["runtime_type" := VString runtimeType]>
  (<["runtime_root" := VString ""]>
  (<["runtime_engine" := VString ""]>
  (<["privileged_without_host_devices" := VBool false]> ∅))).

Definition cdiAnnotations : value := VList [VString "cdi.k8s.io/*"].

(** Modelled from the spec: the entry [Update] writes for a runtime, missing
    from the sources (section 4.4: "inheriting runtime_root, runtime_engine,
    privileged_without_host_devices, and any pre-existing options from a
    pre-existing runc entry if present, while forcing BinaryName/Runtime to
    the computed binary path and tagging with the container_annotations CDI
    selector"). *)
Definition runtimeEntry (c : Config) (binary : string) : toml.Tree :=
  let inherited :=
    match GetPath (runtimesPath ++ ["runc"]) (Tree c) with
    | Some (VTree runc) => runc
    | _ => defaultEntry (RuntimeType c)
    end in
  SetPath ["options"; "Runtime"] (VString binary)
    (SetPath ["options"; "BinaryName"] (VString binary)
       (<["container_annotations" := cdiAnnotations]> inherited)).

Definition withTree (c : Config) (t : toml.Tree) : Config :=
  {| Tree := t; RuntimeType := RuntimeType c;
     UseDefaultRuntimeName := UseDefaultRuntimeName c |}.

(** Modelled from the spec: [ConfigV1.AddRuntime], missing from the sources
    (section 4.4, Update: "write/overwrite a Runtime Entry at the schema path
    appropriate to the version"; "V1 instead inlines a full copy of the
    selected runtime's entry under default_runtime (no name field)"). The
    tests fix three points: the document is stamped [version = 1]
    (TestUpdateV1Config); a config that uses default runtime names gets the
    pointer [default_runtime_name] and no inlined entry; and the inlined
    entry carries no [container_annotations]
    (TestUpdateV1ConfigDefaultRuntime, defaultRuntimeV1). *)
Definition AddRuntime (c : Config) (n binary : string) (asDefault : bool) : Config :=
  let entry := runtimeEntry c binary in
  let t1 := <["version" := VInt 1]> (Tree c) in
  let t2 := SetPath (runtimesPath ++ [n]) (VTree entry) t1 in
  let t3 :=
    if asDefault then
      if UseDefaultRuntimeName c
      then SetPath (containerdPath ++ ["default_runtime_name"]) (VString n) t2
      else SetPath (containerdPath ++ ["default_runtime"])
             (VTree (delete "container_annotations" entry)) t2
    else t2 in
  withTree c t3.

(** The binary an entry names. *)
Definition binaryOf (entry : list string) (t : toml.Tree) : option string :=
  match GetPath (entry ++ ["options"; "BinaryName"]) t with
  | Some (VString s) => Some s
  | _ => None
  end.

(** Drop the table at [p] if it has no key left. *)
Definition pruneAt (p : list string) (t : toml.Tree) : toml.Tree :=
  match GetPath p t with
  | Some (VTree s) => if bool_decide (length (Keys s) = 0) then DeletePath p t else t
  | _ => t
  end.

(** The non-empty prefixes of a path, longest first. *)
Definition ancestors (p : list string) : list (list string) :=
  (λ n, take n p) <$> reverse (seq 1 (length p)).

(** Modelled from the spec: the deletions of [ConfigV1.RemoveRuntime], missing
    from the sources (section 4.4, Revert: "deletes exactly the runtime entries
    this tool manages, plus default_runtime/default_runtime_name if it points
    at one of them"). An inlined [default_runtime] points at the entry whose
    binary it names (TestRevertV1Config reverts entries written for another
    runtime directory than its options give). *)
Definition unlink (t : toml.Tree) (n : string) : toml.Tree :=
  let t1 :=
    match binaryOf (runtimesPath ++ [n]) t, binaryOf (containerdPath ++ ["default_runtime"]) t with
    | Some b, Some d =>
        if bool_decide (b = d) then DeletePath (containerdPath ++ ["default_runtime"]) t else t
    | _, _ => t
    end in
  let t2 := DeletePath (runtimesPath ++ [n]) t1 in
  match GetPath (containerdPath ++ ["default_runtime_name"]) t2 with
  | Some (VString r) =>
      if bool_decide (r = n)
      then DeletePath (containerdPath ++ ["default_runtime_name"]) t2 else t2
  | _ => t2
  end.

(** Modelled from the spec: what [ConfigV1.RemoveRuntime] clears after its
    deletions, missing from the sources. The spec has Revert of an updated
    empty tree give the empty tree back, and TestRevertV1Config expects the
    empty document of each of its cases: the tables on the way to the runtimes
    that are left empty go, and so does [version] when it is the only key
    left. *)
Definition tidy (t : toml.Tree) : toml.Tree :=
  let t4 := foldl (λ t p, pruneAt p t) t (ancestors runtimesPath) in
  if bool_decide (Keys t4 = ["version"]) then delete "version" t4 else t4.

(** Modelled from the spec: [ConfigV1.RemoveRuntime], missing from the
    sources. *)
Definition RemoveRuntime (c : Config) (n : string) : Config :=
  withTree c (tidy (unlink (Tree c) n)).

(** Modelled from the spec: [UpdateConfig] and [RevertConfig], missing from
    the sources (section 4.4: "for each configured runtime name/binary
    pair"). *)
Definition UpdateConfig (c : Config) (o : options) : Config :=
  foldl (λ c r, AddRuntime c (name r) (Path r) (SetAsDefault r)) c (GetRuntimes o).

Definition RevertConfig (c : Config) (o : options) : Config :=
  foldl (λ c r, RemoveRuntime c (name r)) c (GetRuntimes o).

End migrator.

(** ** The cases of [config_v1_test.go] *)

Module config_v1_test.
Import toml containerd migrator.

Definition runtimeType : string := "runtime_type".
Definition runtimeDir : string := "/test/runtime/dir".

Definition table (kvs : list (string * value)) : toml.Tree := list_to_map kvs.

(** [runtimeMapV1] and [defaultRuntimeV1] *)
Definition runtimeMapV1 (binary : string) : toml.Tree :=
  table [("runtime_type", VString runtimeType);
         ("runtime_root", VString "");
         ("runtime_engine", VString "");
         ("privileged_without_host_devices", VBool false);
         ("options", VTree (table [("BinaryName", VString binary);
                                   ("Runtime", VString binary)]))].

Definition defaultRuntimeV1 (binary : string) : toml.Tree := runtimeMapV1 binary.

Definition inContainerd (containerd : toml.Tree) : value :=
  VTree (table [("cri", VTree (table [("containerd", VTree containerd)]))]).

(** [runcConfigMapV1] *)
Definition runcEntry (binary : string) : toml.Tree :=
  table [("runtime_type", VString "runc_runtime_type");
         ("runtime_root", VString "runc_runtime_root");
         ("runtime_engine", VString "runc_runtime_engine");
         ("privileged_without_host_devices", VBool true);
         ("options", VTree (table [("runc-option", VString "value");
                                   ("BinaryName", VString binary)]))].

Definition runcConfigMapV1 (binary : string) : toml.Tree :=
  table [("plugins",
          inContainerd (table [("runtimes", VTree (table [("runc", VTree (runcEntry binary))]))]))].

(** An entry the update tests expect. *)
Definition expectedEntry (inherited : bool) (binary : string) : value :=
  VTree (table
    [("runtime_type", VString (if inherited then "runc_runtime_type" else runtimeType));
     ("runtime_root", VString (if inherited then "runc_runtime_root" else ""));
     ("runtime_engine", VString (if inherited then "runc_runtime_engine" else ""));
     ("privileged_without_host_devices", VBool inherited);
     ("container_annotations", VList [VString "cdi.k8s.io/*"]);
     ("options", VTree (table
        ((if inherited then [("runc-option", VString "value")] else [])
         ++ [("BinaryName", VString binary); ("Runtime", VString binary)])))]).

(** The [expectedConfig] of TestUpdateV1Config ([inherited = false]) and of
    TestUpdateV1ConfigWithRuncPresent ([inherited = true]) for a base entry
    named [base]. *)
Definition expectedConfig (inherited : bool) (base : string) : toml.Tree :=
  table
    [("version", VInt 1);
     ("plugins", inContainerd (table
        [("runtimes", VTree (table
           ((if inherited then [("runc", VTree (runcEntry "/runc-binary"))] else [])
            ++ [(base, expectedEntry inherited "/test/runtime/dir/nvidia-container-runtime");
                ("nvidia-experimental",
                 expectedEntry inherited "/test/runtime/dir/nvidia-container-runtime.experimental");
                ("nvidia-cdi",
                 expectedEntry inherited "/test/runtime/dir/nvidia-container-runtime.cdi");
                ("nvidia-legacy",
                 expectedEntry inherited "/test/runtime/dir/nvidia-container-runtime.legacy")])))]))].

Definition v1 (config : toml.Tree) (useDefaultRuntimeName : bool) : Config :=
  {| Tree := config; UseDefaultRuntimeName := useDefaultRuntimeName;
     RuntimeType := runtimeType |}.

Definition updateOptions (class : string) : options :=
  {| useLegacyConfig := false; setAsDefault := false; runtimeClass := class;
     migrator.runtimeType := runtimeType; migrator.runtimeDir := runtimeDir |}.

(** The options of TestUpdateV1ConfigDefaultRuntime. *)
Definition defaultOptions (legacyConfig asDefault : bool) (class : string) : options :=
  {| useLegacyConfig := legacyConfig; setAsDefault := asDefault; runtimeClass := class;
     migrator.runtimeType := runtimeType; migrator.runtimeDir := runtimeDir |}.

Definition updatedDefault (legacyConfig asDefault : bool) (class : string) : toml.Tree :=
  Tree (UpdateConfig (v1 ∅ (negb legacyConfig)) (defaultOptions legacyConfig asDefault class)).

(** The options of TestRevertV1Config. *)
Definition revertOptions : options :=
  {| useLegacyConfig := false; setAsDefault := false; runtimeClass := "nvidia";
     migrator.runtimeType := ""; migrator.runtimeDir := "" |}.

Definition managedRuntimes : list (string * value) :=
  [("nvidia", VTree (runtimeMapV1 "/test/runtime/dir/nvidia-container-runtime"));
   ("nvidia-experimental", VTree (runtimeMapV1 "/test/runtime/dir/nvidia-container-runtime.experimental"));
   ("nvidia-cdi", VTree (runtimeMapV1 "/test/runtime/dir/nvidia-container-runtime.cdi"));
   ("nvidia-legacy", VTree (runtimeMapV1 "/test/runtime/dir/nvidia-container-runtime.legacy"))].

(** The [config] of the four cases of TestRevertV1Config; each is expected
    to revert to the empty tree. *)
Definition revertCases : list toml.Tree :=
  [ ∅;
    table [("version", VInt 1)];
    table [("version", VInt 1);
           ("plugins", inContainerd (table [("runtimes", VTree (table managedRuntimes))]))];
    table [("version", VInt 1);
           ("plugins", inContainerd (table
              [("runtimes", VTree (table managedRuntimes));
               ("default_runtime",
                VTree (defaultRuntimeV1 "/test/runtime/dir/nvidia-container-runtime"));
               ("default_runtime_name", VString "nvidia")]))] ].

End config_v1_test.

(** ** Test doubles for the collaborators *)

Module doubles.
Import config.

(** An OCI spec reduced to what the modifier looks at. *)
Record rawSpec := {
  annotations : gmap string string;
  visibleDevices : list string;   (* NVIDIA_VISIBLE_DEVICES, split *)
  privileged : bool
}.

Definition cdiPrefix : string := "cdi.k8s.io/".

(** A name with an equals sign in it counts as qualified. *)
Definition hasKind (s : string) : bool :=
  bool_decide (is_Some (String.index 0 "=" s)).

(** The values of the annotations under the CDI prefix are device names;
    one that is not qualified is an error. *)
Definition parseAnnotations (a : gmap string string) : error + (list string * list string) :=
  let cdi := filter (λ kv, String.prefix cdiPrefix kv.1 = true) (map_to_list a) in
  if forallb hasKind cdi.*2 then inr (cdi.*1, cdi.*2)
  else inl (ErrorString "invalid CDI device").

(** A registry is the list of the devices it knows. *)
Definition injectDevices (known : list string) (spec : rawSpec) (devs : list string)
    : rawSpec * (list string * option error) :=
  let unresolved := filter (λ d, d ∉ known) devs in
  match unresolved with
  | [] => (spec, ([], None))
  | _ => (spec, (unresolved, Some (ErrorString "unresolvable CDI devices")))
  end.

(** [stale]: the registry refresh fails. *)
Definition collaborators (stale : bool) : modifier.Collaborators :=
  {| modifier.RawSpec := rawSpec;
     modifier.Annotations := annotations;
     modifier.CUDA := list string;
     modifier.NewCUDAImageFromSpec := λ spec, inr (visibleDevices spec);
     modifier.DevicesFromEnvvars := λ image _, image;
     modifier.IsPrivileged := privileged;
     modifier.ParseAnnotations := parseAnnotations;
     modifier.IsQualifiedName := hasKind;
     modifier.Registry := list string;
     modifier.GetRegistry := λ _ _, ["nvidia.com/gpu=0"; "nvidia.com/gpu=1"];
     modifier.Refresh := λ r, (r, if stale then Some (ErrorString "refresh failed") else None);
     modifier.InjectDevices := injectDevices;
     modifier.DefaultSpecDirs := ["/etc/cdi"; "/var/run/cdi"] |}.

Definition cfg (acceptEnvvarUnprivileged : bool) : Config :=
  {| AcceptEnvvarUnprivileged := acceptEnvvarUnprivileged;
     NVIDIAContainerRuntimeConfig :=
       {| Modes := {| CDI := {| SpecDirs := []; DefaultKind := "nvidia.com/gpu" |} |} |} |}.

Definition ociSpec (stale : bool) (spec : rawSpec) : @modifier.Spec (collaborators stale) :=
  @modifier.Build_Spec (collaborators stale) (inr spec).

(** A container asking for device 0 twice through the environment. *)
Definition twice0 (isPrivileged : bool) : rawSpec :=
  {| annotations := ∅; visibleDevices := ["0"; "0"]; privileged := isPrivileged |}.

(** A container naming a device in its annotations, and another in the
    environment. *)
Definition annotated : rawSpec :=
  {| annotations := {[ "cdi.k8s.io/gpu" := "nvidia.com/gpu=1" ]};
     visibleDevices := ["0"]; privileged := true |}.

(** A container asking for nothing. *)
Definition plain : rawSpec :=
  {| annotations := ∅; visibleDevices := []; privileged := false |}.

(** A host with one directory, one config file, and nothing else. *)
Definition host : containerd.Host :=
  {| containerd.Stat := λ p,
       if bool_decide (p = "/etc/containerd") then (Some {| os.IsDir := true |}, None)
       else if bool_decide (p = "/etc/containerd/config.toml")
            then (Some {| os.IsDir := false |}, None)
            else (None, Some os.ENOENT);
     containerd.LoadFile := λ p,
       if bool_decide (p = "/etc/containerd") then inl (ErrorString "is a directory")
       else if bool_decide (p = "/etc/containerd/config.toml")
            then inr {[ "version" := toml.VInt 2 ]}
            else if bool_decide (p = "/dev/null") then inr ∅
                 else inl (ErrorString "no such file or directory") |}.

(** The same collaborators, with an image constructor that always fails. *)
Definition collaboratorsWithoutImage : modifier.Collaborators :=
  {| modifier.RawSpec := rawSpec;
     modifier.Annotations := annotations;
     modifier.CUDA := list string;
     modifier.NewCUDAImageFromSpec := λ _, inl (ErrorString "no image");
     modifier.DevicesFromEnvvars := λ image _, image;
     modifier.IsPrivileged := privileged;
     modifier.ParseAnnotations := parseAnnotations;
     modifier.IsQualifiedName := hasKind;
     modifier.Registry := list string;
     modifier.GetRegistry := λ _ _, ["nvidia.com/gpu=0"; "nvidia.com/gpu=1"];
     modifier.Refresh := λ r, (r, None);
     modifier.InjectDevices := injectDevices;
     modifier.DefaultSpecDirs := ["/etc/cdi"; "/var/run/cdi"] |}.

(** A spec that cannot be loaded. *)
Definition unreadable : @modifier.Spec (collaborators false) :=
  @modifier.Build_Spec (collaborators false) (inl (ErrorString "unexpected end of JSON input")).

(** A container whose CDI annotation names a device with no kind. *)
Definition misannotated : rawSpec :=
  {| annotations := {[ "cdi.k8s.io/gpu" := "0" ]};
     visibleDevices := ["0"]; privileged := true |}.

(** A container asking for one device by index and one by its full name. *)
Definition mixed (isPrivileged : bool) : rawSpec :=
  {| annotations := ∅; visibleDevices := ["0"; "nvidia.com/gpu=1"];
     privileged := isPrivileged |}.

(** A container asking for a device the registry does not know. *)
Definition unknownDevice : rawSpec :=
  {| annotations := ∅; visibleDevices := ["7"]; privileged := true |}.

(** A configuration with spec directories of its own. *)
Definition cfgWithDirs (dirs : list string) : Config :=
  {| AcceptEnvvarUnprivileged := true;
     NVIDIAContainerRuntimeConfig :=
       {| Modes := {| CDI := {| SpecDirs := dirs; DefaultKind := "nvidia.com/gpu" |} |} |} |}.

(** A host whose regular files are the documents of [files]; [/dev/null]
    reads as the empty document. *)
Definition hostWith (files : gmap string toml.Tree) : containerd.Host :=
  {| containerd.Stat := λ p,
       match files !! p with
       | Some _ => (Some {| os.IsDir := false |}, None)
       | None => (None, Some os.ENOENT)
       end;
     containerd.LoadFile := λ p,
       match files !! p with
       | Some t => inr t
       | None => if bool_decide (p = "/dev/null") then inr ∅
                 else inl (ErrorString "no such file or directory")
       end |}.

(** A host whose config file cannot be parsed. *)
Definition hostWithGarbage : containerd.Host :=
  {| containerd.Stat := λ _, (Some {| os.IsDir := false |}, None);
     containerd.LoadFile := λ _, inl (ErrorString "toml: parse error") |}.

Definition configPath : string := "/etc/containerd/config.toml".

Definition builderFor (legacy : bool) : containerd.builder :=
  {| containerd.path := configPath; containerd.runtimeType := "";
     containerd.useLegacyConfig := legacy |}.

End doubles.

(** * Properties *)

(** ** The model of the migrator passes the tests it is modelled after *)

Module config_v1_test_runs.
Import toml containerd migrator config_v1_test.

Example TestUpdateV1Config :
  Forall (λ '(class, base),
            Tree (UpdateConfig (v1 ∅ true) (updateOptions class))
            = expectedConfig false base)
    [("nvidia", "nvidia"); ("NAME", "NAME"); ("nvidia-experimental", "nvidia")].
Proof. repeat constructor; vm_compute; reflexivity. Qed.

Example TestUpdateV1ConfigWithRuncPresent :
  Forall (λ '(class, base),
            Tree (UpdateConfig (v1 (runcConfigMapV1 "/runc-binary") true)
                    (updateOptions class))
            = expectedConfig true base)
    [("nvidia", "nvidia"); ("NAME", "NAME"); ("nvidia-experimental", "nvidia")].
Proof. repeat constructor; vm_compute; reflexivity. Qed.

Example TestRevertV1Config :
  Forall (λ config, Tree (RevertConfig (v1 config true) revertOptions) = ∅) revertCases.
Proof. repeat constructor; vm_compute; reflexivity. Qed.

Example TestUpdateV1ConfigDefaultRuntime :
  Forall (λ tc : bool * bool * string * option value * option string,
            let '(legacyConfig, asDefault, class, expectedName, expectedBinary) := tc in
            GetPath (containerdPath ++ ["default_runtime_name"])
              (updatedDefault legacyConfig asDefault class) = expectedName
            /\ GetPath (containerdPath ++ ["default_runtime"])
                 (updatedDefault legacyConfig asDefault class)
               = (λ binary, VTree (defaultRuntimeV1 binary)) <$> expectedBinary)
    [ (false, false, "", None, None);
      (true, false, "", None, None);
      (true, true, "", None, Some "/test/runtime/dir/nvidia-container-runtime");
      (true, true, "NAME", None, Some "/test/runtime/dir/nvidia-container-runtime");
      (true, true, "nvidia-experimental", None,
       Some "/test/runtime/dir/nvidia-container-runtime.experimental");
      (false, false, "", None, None);
      (false, true, "", Some (VString "nvidia"), None);
      (false, true, "NAME", Some (VString "NAME"), None);
      (false, true, "nvidia-experimental", Some (VString "nvidia-experimental"), None) ].
Proof. repeat constructor; vm_compute; reflexivity. Qed.

End config_v1_test_runs.

(** ** The CDI modifier *)

Module modifier_props.
Import config modifier.

Section Resolver.
Context `{Collaborators}.

Lemma bind_ret {A B} (a : A) (k : A -> M B) : bind (ret a) k = k a.
Proof. unfold bind, ret. simpl. by destruct (k a). Qed.

Lemma bind_call_ok {A B} (e : event) (a : A) (k : A -> M B) :
  bind (call e (inr a)) k = (e :: trace (k a), outcome (k a)).
Proof. reflexivity. Qed.

(** The loop started with nothing seen skips no name and logs nothing:
    line 90 always reads false. *)
Lemma envLoop_keeps_every_name (cfg : Config) (names devs : list string) :
  envLoop cfg names ∅ devs = ret (devs ++ (qualify cfg <$> names)).
Proof.
  revert devs. induction names as [|name rest IH]; intros devs; simpl.
  - by rewrite app_nil_r.
  - rewrite lookup_empty. simpl. rewrite IH. by rewrite <- app_assoc.
Qed.

(** C2: when the annotations of the loaded spec parse to at least one
    device, [getDevicesFromSpec] returns exactly those devices, and the
    whole run is the load and the parse: the image is never built and
    NVIDIA_VISIBLE_DEVICES never read. *)
Theorem C2_annotation_devices_win (ociSpec : Spec) (cfg : Config)
    (rawSpec : RawSpec) (keys annotationDevices : list string) :
  Load ociSpec = inr rawSpec ->
  ParseAnnotations (Annotations rawSpec) = inr (keys, annotationDevices) ->
  0 < length annotationDevices ->
  outcome (getDevicesFromSpec ociSpec cfg) = inr annotationDevices
  /\ trace (getDevicesFromSpec ociSpec cfg) = [CallLoad; CallParseAnnotations]
  /\ (forall envvar, CallDevicesFromEnvvars envvar ∉ trace (getDevicesFromSpec ociSpec cfg)).
Proof.
  intros Hload Hparse Hlen.
  assert (getDevicesFromSpec ociSpec cfg
          = ([CallLoad; CallParseAnnotations], inr annotationDevices)) as ->.
  { unfold getDevicesFromSpec. rewrite Hload. simpl. rewrite Hparse. simpl.
    rewrite bool_decide_eq_true_2 by done. reflexivity. }
  split_and!; [done..|].
  by intros envvar [?|[?|?%elem_of_nil]%elem_of_cons]%elem_of_cons.
Qed.

(** What [getDevicesFromSpec] does once the annotations name no device:
    the run up to the privilege check. *)
Lemma getDevicesFromSpec_envvar (ociSpec : Spec) (cfg : Config)
    (rawSpec : RawSpec) (keys : list string) (container : CUDA) :
  Load ociSpec = inr rawSpec ->
  ParseAnnotations (Annotations rawSpec) = inr (keys, []) ->
  NewCUDAImageFromSpec rawSpec = inr container ->
  let devs := qualify cfg <$> DevicesFromEnvvars container visibleDevicesEnvvar in
  let reads := [CallLoad; CallParseAnnotations; CallNewCUDAImageFromSpec;
                CallDevicesFromEnvvars visibleDevicesEnvvar] in
  getDevicesFromSpec ociSpec cfg
  = if bool_decide (length devs = 0) then (reads, inr [])
    else if AcceptEnvvarUnprivileged cfg then (reads, inr devs)
    else if IsPrivileged rawSpec then (reads ++ [CallIsPrivileged], inr devs)
    else (reads ++ [CallIsPrivileged; Warningf (IgnoringEnvvarDevices devs)], inr []).
Proof.
  intros Hload Hparse Himage devs reads.
  unfold getDevicesFromSpec. rewrite Hload. simpl. rewrite Hparse. simpl.
  rewrite Himage. simpl. rewrite envLoop_keeps_every_name. simpl.
  fold devs. destruct (bool_decide (length devs = 0)); [done|].
  destruct (AcceptEnvvarUnprivileged cfg); [done|]. simpl.
  by destruct (IsPrivileged rawSpec).
Qed.

(** C3: on the path that reads NVIDIA_VISIBLE_DEVICES (the spec loads and
    its annotations name no device), a non-empty list of devices from an
    unprivileged container, with [AcceptEnvvarUnprivileged] off, is
    dropped: the result is the empty list and a nil error, and the last
    thing the run does is log the warning. *)
Theorem C3_unprivileged_envvar_devices_dropped (ociSpec : Spec) (cfg : Config)
    (rawSpec : RawSpec) (keys : list string) (container : CUDA) :
  Load ociSpec = inr rawSpec ->
  ParseAnnotations (Annotations rawSpec) = inr (keys, []) ->
  NewCUDAImageFromSpec rawSpec = inr container ->
  DevicesFromEnvvars container visibleDevicesEnvvar <> [] ->
  IsPrivileged rawSpec = false ->
  AcceptEnvvarUnprivileged cfg = false ->
  outcome (getDevicesFromSpec ociSpec cfg) = inr []
  /\ last (trace (getDevicesFromSpec ociSpec cfg))
     = Some (Warningf (IgnoringEnvvarDevices
               (qualify cfg <$> DevicesFromEnvvars container visibleDevicesEnvvar))).
Proof.
  intros Hload Hparse Himage Hdevs Hpriv Haccept.
  rewrite (getDevicesFromSpec_envvar _ _ _ _ _ Hload Hparse Himage).
  rewrite Hpriv, Haccept.
  rewrite bool_decide_eq_false_2; [done|].
  rewrite length_fmap. by destruct (DevicesFromEnvvars container visibleDevicesEnvvar).
Qed.

(** C4: when the resolved device list is empty, [NewCDIModifier] returns
    the nil modifier and a nil error, having logged that no modification
    is required. *)
Theorem C4_no_devices_no_modifier (cfg : Config) (ociSpec : Spec) :
  outcome (getDevicesFromSpec ociSpec cfg) = inr [] ->
  outcome (NewCDIModifier cfg ociSpec) = inr None
  /\ last (trace (NewCDIModifier cfg ociSpec)) = Some (Debugf NoDevicesRequested).
Proof.
  unfold NewCDIModifier, outcome, trace.
  destruct (getDevicesFromSpec ociSpec cfg) as [tr [e|devs]]; simpl; [done|].
  intros [= ->]. simpl. split; [done|]. by rewrite last_snoc.
Qed.

(** C5: [Modify] returns an error exactly when [InjectDevices] reports
    one, and the error is that one wrapped; when only the refresh fails,
    [Modify] logs it, goes on to inject, and returns nil. *)
Theorem C5_only_injection_fails_Modify (m : cdiModifier) (spec : RawSpec) :
  let refreshed := Refresh (GetRegistry (specDirs m) false) in
  let injected := InjectDevices refreshed.1 spec (devices m) in
  (forall err, outcome (Modify m spec) = inl err
               <-> exists cause, injected.2.2 = Some cause
                   /\ err = ErrorWrap "failed to inject CDI devices" cause)
  /\ (forall cause, refreshed.2 = Some cause -> injected.2.2 = None ->
        outcome (Modify m spec) = inr injected.1
        /\ trace (Modify m spec)
           = [CallGetRegistry (specDirs m) false; CallRefresh;
              Debugf (RefreshFailed cause);
              Debugf (InjectingDevices (devices m));
              CallInjectDevices (devices m)]).
Proof.
  intros refreshed injected. unfold Modify, outcome, trace. simpl.
  fold refreshed. destruct (refreshed.2) as [rerr|] eqn:Hr; simpl;
    fold injected; destruct (injected.2.2) as [ierr|] eqn:Hi; simpl.
  all: split; [intros err; split; [intros [= <-]; eauto | intros (cause & [= <-] & ->); done]
              | intros cause [= <-] Hnone; try done ].
Qed.

End Resolver.

Import doubles.

(** C1 fails on the code: a container that asks for device 0 twice gets
    it twice. Nothing ever writes to [seen], so the test at line 90 is
    false for the second "0" as for the first, and no duplicate is
    logged. *)
Theorem C1_duplicates_are_kept :
  @getDevicesFromSpec (collaborators false) (ociSpec false (twice0 true)) (cfg false)
  = ([CallLoad; CallParseAnnotations; CallNewCUDAImageFromSpec;
      CallDevicesFromEnvvars "NVIDIA_VISIBLE_DEVICES"; CallIsPrivileged],
     inr ["nvidia.com/gpu=0"; "nvidia.com/gpu=0"]).
Proof.
  rewrite (@getDevicesFromSpec_envvar (collaborators false) _ _ (twice0 true) [] ["0"; "0"]);
    reflexivity.
Qed.

Lemma C2_annotated_container :
  outcome (@getDevicesFromSpec (collaborators false) (ociSpec false annotated) (cfg false))
  = inr ["nvidia.com/gpu=1"]
  /\ trace (@getDevicesFromSpec (collaborators false) (ociSpec false annotated) (cfg false))
     = [CallLoad; CallParseAnnotations]
  /\ (forall envvar,
        CallDevicesFromEnvvars envvar
        ∉ trace (@getDevicesFromSpec (collaborators false) (ociSpec false annotated) (cfg false))).
Proof.
  apply (@C2_annotation_devices_win (collaborators false) (ociSpec false annotated)
           (cfg false) annotated ["cdi.k8s.io/gpu"] ["nvidia.com/gpu=1"]).
  - reflexivity.
  - vm_compute. reflexivity.
  - simpl. lia.
Defined.

Lemma C3_unprivileged_container :
  outcome (@getDevicesFromSpec (collaborators false) (ociSpec false (twice0 false)) (cfg false))
  = inr []
  /\ last (trace (@getDevicesFromSpec (collaborators false)
                    (ociSpec false (twice0 false)) (cfg false)))
     = Some (Warningf (IgnoringEnvvarDevices ["nvidia.com/gpu=0"; "nvidia.com/gpu=0"])).
Proof.
  apply (@C3_unprivileged_envvar_devices_dropped (collaborators false)
           (ociSpec false (twice0 false)) (cfg false) (twice0 false) [] ["0"; "0"]).
  - reflexivity.
  - vm_compute. reflexivity.
  - reflexivity.
  - discriminate.
  - reflexivity.
  - reflexivity.
Defined.

Lemma C4_plain_container :
  outcome (@NewCDIModifier (collaborators false) (cfg true) (ociSpec false plain)) = inr None
  /\ last (trace (@NewCDIModifier (collaborators false) (cfg true) (ociSpec false plain)))
     = Some (Debugf NoDevicesRequested).
Proof.
  apply (@C4_no_devices_no_modifier (collaborators false) (cfg true) (ociSpec false plain)).
  vm_compute. reflexivity.
Defined.

Lemma C5_stale_registry :
  outcome (@Modify (collaborators true)
             {| specDirs := ["/etc/cdi"]; devices := ["nvidia.com/gpu=0"] |} plain)
  = inr plain.
Proof.
  apply (proj2 (@C5_only_injection_fails_Modify (collaborators true)
                  {| specDirs := ["/etc/cdi"]; devices := ["nvidia.com/gpu=0"] |} plain)
           (ErrorString "refresh failed")).
  - reflexivity.
  - vm_compute. reflexivity.
Defined.

End modifier_props.

(** ** The containerd config engine *)

Module containerd_props.
Import toml containerd.

Lemma Keys_nil (t : toml.Tree) : Keys t = [] <-> t = ∅.
Proof.
  unfold Keys. split.
  - intros Hnil%fmap_nil_inv. by apply map_to_list_empty_iff.
  - intros ->. by rewrite map_to_list_empty.
Qed.

Section Engine.
Context `{Host}.

(** C6: [parseVersion] on a tree with no [version] key gives the default
    version (2, or 1 for a legacy config) when the tree has no key at
    all, and 1 when it has some; an integer [version] is returned as it
    is; a [version] of any other type is an error. *)
Theorem C6_parseVersion (c : Config) (legacy : bool) :
  (Keys (Tree c) = [] ->
   parseVersion c legacy = ((if legacy then 1 else 2)%Z, None))
  /\ (Get "version" (Tree c) = None -> Keys (Tree c) <> [] ->
      parseVersion c legacy = (1%Z, None))
  /\ (forall v : Z, Get "version" (Tree c) = Some (VInt v) ->
      parseVersion c legacy = (v, None))
  /\ (forall x : value, Get "version" (Tree c) = Some x -> (forall v, x <> VInt v) ->
      exists err, parseVersion c legacy = ((-1)%Z, Some err)).
Proof.
  unfold parseVersion. split_and!.
  - intros Hkeys. apply Keys_nil in Hkeys as Hempty. rewrite Hkeys.
    unfold Get. rewrite Hempty, lookup_empty. reflexivity.
  - intros -> Hkeys. by destruct (Keys (Tree c)).
  - by intros v ->.
  - intros x -> Hx. destruct x; eauto. by destruct (Hx z).
Qed.

(** C10: under the contract of [os.Stat], the guard of the "config file
    is a directory" branch never holds, so every error [loadConfig]
    returns is one the TOML loader returned; a path that names an
    existing directory goes to the loader as it is. *)
Theorem C10_directory_branch_unreachable (config : string) :
  os.StatContract (Stat config) ->
  isExistingDir (Stat config) <> Returns true
  /\ (forall err, (loadConfig config).2 = Returns (inl err) ->
        LoadFile (if os.IsNotExist (Stat config).2 then "/dev/null" else config)
        = inl err)
  /\ (forall info, Stat config = (Some info, None) ->
        (loadConfig config).2
        = Returns (match LoadFile config with
                   | inl err => inl err
                   | inr tomlConfig => inr (newConfig tomlConfig)
                   end)).
Proof.
  intros Hstat. unfold loadConfig, isExistingDir.
  destruct (Stat config) as [[info|] [errno|]]; simpl in *; try done.
  - split_and!; [done| |].
    + intros err. destruct (LoadFile config); simpl; congruence.
    + intros ? _. by destruct (LoadFile config).
  - destruct errno; simpl; (split_and!; [done| |done]).
    all: intros err;
      repeat match goal with |- context [LoadFile ?f] => destruct (LoadFile f) end;
      simpl; congruence.
Qed.

End Engine.

Import doubles.

Lemma C6_empty_and_versioned :
  @parseVersion {| Tree := ∅; RuntimeType := ""; UseDefaultRuntimeName := true |} true
  = (1%Z, None).
Proof.
  apply (proj1 (C6_parseVersion
                  {| Tree := ∅; RuntimeType := ""; UseDefaultRuntimeName := true |} true)).
  reflexivity.
Defined.

Lemma C10_existing_directory :
  (@loadConfig host "/etc/containerd").2 = Returns (inl (ErrorString "is a directory")).
Proof.
  apply (proj2 (proj2 (@C10_directory_branch_unreachable host "/etc/containerd" I))
           {| os.IsDir := true |}).
  reflexivity.
Defined.

End containerd_props.

(** ** More on the CDI modifier *)

Module modifier_more.
Import config modifier modifier_props.

Section Resolver.
Context `{Collaborators}.

(** X1: [getDevicesFromSpec] fails exactly when the spec does not load, its
    annotations do not parse, or the image cannot be built from it; the first
    two causes come back wrapped, the third as it is. *)
Theorem getDevicesFromSpec_errors (ociSpec : Spec) (cfg : Config) (err : error) :
  outcome (getDevicesFromSpec ociSpec cfg) = inl err
  <-> (exists cause, Load ociSpec = inl cause
                     /\ err = ErrorWrap "failed to load OCI spec" cause)
      \/ (exists rawSpec cause,
            Load ociSpec = inr rawSpec
            /\ ParseAnnotations (Annotations rawSpec) = inl cause
            /\ err = ErrorWrap "failed to parse container annotations" cause)
      \/ (exists rawSpec keys,
            Load ociSpec = inr rawSpec
            /\ ParseAnnotations (Annotations rawSpec) = inr (keys, [])
            /\ NewCUDAImageFromSpec rawSpec = inl err).
Proof.
  unfold getDevicesFromSpec, outcome.
  destruct (Load ociSpec) as [lerr|rawSpec] eqn:Hload; simpl.
  { split; [intros [= <-]; left; eauto|].
    intros [(cause & [= <-] & ->)|[(? & ? & [=] & _)|(? & ? & [=] & _)]]. done. }
  destruct (ParseAnnotations (Annotations rawSpec)) as [perr|[keys devs]] eqn:Hparse; simpl.
  { split; [intros [= <-]; right; left; eauto|].
    intros [(? & [=] & _)|[(? & cause & [= <-] & Hp & ->)|(? & ? & [= <-] & Hp & _)]];
      rewrite Hparse in Hp; congruence. }
  destruct devs as [|dev devs]; simpl.
  - destruct (NewCUDAImageFromSpec rawSpec) as [ierr|container] eqn:Himage; simpl.
    { split; [intros [= <-]; right; right; eauto|].
      intros [(? & [=] & _)|[(? & ? & [= <-] & Hp & _)|(? & ? & [= <-] & _ & Hi)]];
        [rewrite Hparse in Hp|rewrite Himage in Hi]; congruence. }
    rewrite envLoop_keeps_every_name. simpl.
    split.
    + destruct (bool_decide _); [done|]. destruct (AcceptEnvvarUnprivileged cfg); [done|].
      simpl. by destruct (IsPrivileged rawSpec).
    + intros [(? & [=] & _)|[(? & ? & [= <-] & Hp & _)|(? & ? & [= <-] & _ & Hi)]];
        [rewrite Hparse in Hp|rewrite Himage in Hi]; congruence.
  - split; [done|].
    intros [(? & [=] & _)|[(? & ? & [= <-] & Hp & _)|(? & ? & [= <-] & Hp & _)]];
      rewrite Hparse in Hp; congruence.
Qed.

(** X2: With [AcceptEnvvarUnprivileged] set, the privileges of the container
    are never looked at and nothing is dropped with a warning. *)
Theorem accepted_envvar_skips_privilege_check (ociSpec : Spec) (cfg : Config) :
  AcceptEnvvarUnprivileged cfg = true ->
  (CallIsPrivileged ∉ trace (getDevicesFromSpec ociSpec cfg))
  /\ (forall devs,
        Warningf (IgnoringEnvvarDevices devs) ∉ trace (getDevicesFromSpec ociSpec cfg)).
Proof.
  intros Haccept. unfold getDevicesFromSpec, trace. rewrite Haccept.
  destruct (Load ociSpec) as [lerr|rawSpec]; simpl;
    [|destruct (ParseAnnotations (Annotations rawSpec)) as [perr|[keys [|dev devs']]]; simpl;
      [| destruct (NewCUDAImageFromSpec rawSpec) as [ierr|container]; simpl;
         [| rewrite envLoop_keeps_every_name; simpl; destruct (bool_decide _); simpl ] | ] ].
  all: split; [|intros devs]; intros Hin;
    repeat (apply elem_of_cons in Hin as [Hin|Hin]; [discriminate|]);
    by apply elem_of_nil in Hin.
Qed.

Lemma getDevicesFromSpec_allowed (ociSpec : Spec) (cfg : Config)
    (rawSpec : RawSpec) (keys : list string) (container : CUDA) :
  Load ociSpec = inr rawSpec ->
  ParseAnnotations (Annotations rawSpec) = inr (keys, []) ->
  NewCUDAImageFromSpec rawSpec = inr container ->
  AcceptEnvvarUnprivileged cfg = true \/ IsPrivileged rawSpec = true ->
  outcome (getDevicesFromSpec ociSpec cfg)
  = inr (qualify cfg <$> DevicesFromEnvvars container visibleDevicesEnvvar).
Proof.
  intros Hload Hparse Himage Hallowed.
  rewrite (getDevicesFromSpec_envvar _ _ _ _ _ Hload Hparse Himage).
  case_bool_decide as Hlen.
  - by rewrite (nil_length_inv _ Hlen).
  - destruct (AcceptEnvvarUnprivileged cfg); [done|].
    destruct Hallowed as [? | ->]; done.
Qed.



(** X3: On the path that reads NVIDIA_VISIBLE_DEVICES, a container that is
    privileged or covered by [AcceptEnvvarUnprivileged], and whose list
    names no device twice, gets every name of the list, in order, each
    qualified with the default kind if it has none. *)
Theorem envvar_devices_honoured (ociSpec : Spec) (cfg : Config)
    (rawSpec : RawSpec) (keys : list string) (container : CUDA) :
  Load ociSpec = inr rawSpec ->
  ParseAnnotations (Annotations rawSpec) = inr (keys, []) ->
  NewCUDAImageFromSpec rawSpec = inr container ->
  AcceptEnvvarUnprivileged cfg = true \/ IsPrivileged rawSpec = true ->
  NoDup (qualify cfg <$> DevicesFromEnvvars container visibleDevicesEnvvar) ->
  outcome (getDevicesFromSpec ociSpec cfg)
  = inr (qualify cfg <$> DevicesFromEnvvars container visibleDevicesEnvvar).
Proof.
  intros Hload Hparse Himage Hallowed _.
  by apply (getDevicesFromSpec_allowed ociSpec cfg rawSpec keys container).
Qed.

(** X4: An empty NVIDIA_VISIBLE_DEVICES list gives the empty result at once:
    no privilege check, no warning, whatever the configuration. *)
Theorem empty_envvar_list (ociSpec : Spec) (cfg : Config)
    (rawSpec : RawSpec) (keys : list string) (container : CUDA) :
  Load ociSpec = inr rawSpec ->
  ParseAnnotations (Annotations rawSpec) = inr (keys, []) ->
  NewCUDAImageFromSpec rawSpec = inr container ->
  DevicesFromEnvvars container visibleDevicesEnvvar = [] ->
  getDevicesFromSpec ociSpec cfg
  = ([CallLoad; CallParseAnnotations; CallNewCUDAImageFromSpec;
      CallDevicesFromEnvvars visibleDevicesEnvvar], inr []).
Proof.
  intros Hload Hparse Himage Hnone.
  rewrite (getDevicesFromSpec_envvar _ _ _ _ _ Hload Hparse Himage). by rewrite Hnone.
Qed.

(** X5: An error of the resolver comes out of [NewCDIModifier] wrapped once
    more, with no modifier and nothing further logged. *)
Theorem NewCDIModifier_error (cfg : Config) (ociSpec : Spec) (err : error) :
  outcome (getDevicesFromSpec ociSpec cfg) = inl err ->
  outcome (NewCDIModifier cfg ociSpec)
  = inl (ErrorWrap "failed to get required devices from OCI specification" err)
  /\ trace (NewCDIModifier cfg ociSpec) = trace (getDevicesFromSpec ociSpec cfg).
Proof.
  unfold NewCDIModifier, outcome, trace.
  destruct (getDevicesFromSpec ociSpec cfg) as [tr [e|devs]]; simpl; [|done].
  by intros [= ->].
Qed.

(** X6: [NewCDIModifier] returns a modifier exactly when the resolver returned
    a non-empty list; the modifier carries that list, and the spec
    directories of the configuration if it has any, the defaults of the CDI
    library otherwise. *)
Theorem NewCDIModifier_modifier (cfg : Config) (ociSpec : Spec) (m : cdiModifier) :
  outcome (NewCDIModifier cfg ociSpec) = inr (Some m)
  <-> outcome (getDevicesFromSpec ociSpec cfg) = inr (devices m)
      /\ devices m ≠ []
      /\ specDirs m
         = match SpecDirs (CDI (Modes (NVIDIAContainerRuntimeConfig cfg))) with
           | [] => DefaultSpecDirs
           | dirs => dirs
           end.
Proof.
  unfold NewCDIModifier, outcome.
  destruct (getDevicesFromSpec ociSpec cfg) as [tr [e|devs]]; simpl.
  { split; [done|]. by intros [[=] _]. }
  destruct devs as [|dev devs]; simpl.
  { split; [done|]. by intros ([= <-] & Hne & _). }
  destruct m as [mdirs mdevs]; simpl.
  destruct (SpecDirs (CDI (Modes (NVIDIAContainerRuntimeConfig cfg)))) as [|dir dirs]; simpl.
  all: split; [by intros [= <- <-]|by intros ([= <-] & _ & ->)].
Qed.

(** X7: Whatever the registry answers, [Modify] asks for it with auto-refresh
    off and the modifier's directories, refreshes it once, and calls
    [InjectDevices] once, last, with exactly the modifier's devices. *)
Theorem Modify_calls (m : cdiModifier) (spec : RawSpec) :
  trace (Modify m spec)
  = [CallGetRegistry (specDirs m) false; CallRefresh]
    ++ match (Refresh (GetRegistry (specDirs m) false)).2 with
       | Some err => [Debugf (RefreshFailed err)]
       | None => []
       end
    ++ [Debugf (InjectingDevices (devices m)); CallInjectDevices (devices m)].
Proof.
  unfold Modify, trace. simpl.
  destruct ((Refresh (GetRegistry (specDirs m) false)).2); simpl;
    by destruct ((InjectDevices _ spec (devices m)).2.2).
Qed.

(** X8: When [Modify] succeeds, the spec it leaves is the one [InjectDevices]
    made of the spec it was given, on the refreshed registry. *)
Theorem Modify_success (m : cdiModifier) (spec spec' : RawSpec) :
  outcome (Modify m spec) = inr spec'
  <-> let injected :=
        InjectDevices (Refresh (GetRegistry (specDirs m) false)).1 spec (devices m) in
      injected.2.2 = None /\ spec' = injected.1.
Proof.
  unfold Modify, outcome. simpl.
  destruct ((Refresh (GetRegistry (specDirs m) false)).2); simpl;
    destruct ((InjectDevices _ spec (devices m)).2.2); simpl.
  all: split; [intros [= <-]|intros [[=] ->]]; done.
Qed.


End Resolver.

Import doubles.

Lemma unparsable_annotations_and_missing_image :
  outcome (@getDevicesFromSpec (collaborators false) (ociSpec false misannotated) (cfg true))
  = inl (ErrorWrap "failed to parse container annotations" (ErrorString "invalid CDI device"))
  /\ outcome (@getDevicesFromSpec collaboratorsWithoutImage
                (@Build_Spec collaboratorsWithoutImage (inr plain)) (cfg true))
     = inl (ErrorString "no image").
Proof.
  split.
  - apply (@getDevicesFromSpec_errors (collaborators false)). right. left.
    exists misannotated, (ErrorString "invalid CDI device"). split_and!; [reflexivity| |reflexivity].
    vm_compute. reflexivity.
  - apply (@getDevicesFromSpec_errors collaboratorsWithoutImage). right. right.
    exists plain, []. split_and!; [reflexivity| |reflexivity].
    vm_compute. reflexivity.
Defined.

Lemma accepted_unprivileged_container :
  (CallIsPrivileged
   ∉ trace (@getDevicesFromSpec (collaborators false) (ociSpec false (mixed false)) (cfg true)))
  /\ (forall devs,
        Warningf (IgnoringEnvvarDevices devs)
        ∉ trace (@getDevicesFromSpec (collaborators false) (ociSpec false (mixed false))
                   (cfg true))).
Proof.
  apply (@accepted_envvar_skips_privilege_check (collaborators false)). reflexivity.
Defined.

Lemma index_and_full_name :
  outcome (@getDevicesFromSpec (collaborators false) (ociSpec false (mixed false)) (cfg true))
  = inr ["nvidia.com/gpu=0"; "nvidia.com/gpu=1"].
Proof.
  apply (@envvar_devices_honoured (collaborators false) (ociSpec false (mixed false))
           (cfg true) (mixed false) [] ["0"; "nvidia.com/gpu=1"]).
  - reflexivity.
  - vm_compute. reflexivity.
  - reflexivity.
  - left. reflexivity.
  - vm_compute. by apply (bool_decide_unpack _).
Defined.

Lemma nothing_requested :
  @getDevicesFromSpec (collaborators false) (ociSpec false plain) (cfg false)
  = ([CallLoad; CallParseAnnotations; CallNewCUDAImageFromSpec;
      CallDevicesFromEnvvars visibleDevicesEnvvar], inr []).
Proof.
  apply (@empty_envvar_list (collaborators false) (ociSpec false plain) (cfg false) plain []
           []).
  - reflexivity.
  - vm_compute. reflexivity.
  - reflexivity.
  - reflexivity.
Defined.

Lemma unreadable_spec :
  outcome (@NewCDIModifier (collaborators false) (cfg true) unreadable)
  = inl (ErrorWrap "failed to get required devices from OCI specification"
           (ErrorWrap "failed to load OCI spec" (ErrorString "unexpected end of JSON input")))
  /\ trace (@NewCDIModifier (collaborators false) (cfg true) unreadable)
     = trace (@getDevicesFromSpec (collaborators false) unreadable (cfg true)).
Proof.
  apply (@NewCDIModifier_error (collaborators false)). reflexivity.
Defined.

Lemma configured_directories :
  outcome (@NewCDIModifier (collaborators false) (cfgWithDirs ["/opt/cdi"])
             (ociSpec false (mixed false)))
  = inr (Some {| specDirs := ["/opt/cdi"];
                 devices := ["nvidia.com/gpu=0"; "nvidia.com/gpu=1"] |}).
Proof.
  apply (@NewCDIModifier_modifier (collaborators false)). split_and!.
  - vm_compute. reflexivity.
  - discriminate.
  - reflexivity.
Defined.

Lemma known_devices_injected :
  outcome (@Modify (collaborators false)
             {| specDirs := ["/etc/cdi"]; devices := ["nvidia.com/gpu=1"] |} plain)
  = inr plain.
Proof.
  apply (@Modify_success (collaborators false)). split.
  - vm_compute. reflexivity.
  - reflexivity.
Defined.


End modifier_more.

(** ** More on the containerd config engine *)

Module containerd_more.
Import toml containerd containerd_props.

(** The config [build] hands to [parseVersion]: the loaded document, the
    runtime type of the builder or the default one, and default runtime
    names unless the config is a legacy one. *)
Local Abbreviation configured b t :=
  {| Tree := t;
     RuntimeType := if bool_decide (runtimeType b = "") then defaultRuntimeType
                    else runtimeType b;
     UseDefaultRuntimeName := negb (useLegacyConfig b) |}.

Section Engine.
Context `{Host}.

(** [build] once the document is loaded. *)
Lemma build_loaded (b : builder) (t : toml.Tree) :
  path b <> "" ->
  (loadConfig (path b)).2 = Returns (inr (newConfig t)) ->
  build b
  = match parseVersion (configured b t) (useLegacyConfig b) with
    | (_, Some err) => Returns (inl (ErrorWrap "failed to parse config version" err))
    | (1%Z, None) => Returns (inr (ConfigV1 (configured b t)))
    | (2%Z, None) => Returns (inr (ConfigV2 (configured b t)))
    | (version, None) =>
        Returns (inl (ErrorValue "unsupported config version" (VInt version)))
    end.
Proof.
  intros Hpath Hload. unfold build. rewrite bool_decide_eq_false_2 by done.
  by rewrite Hload.
Qed.

Lemma parseVersion_empty (c : Config) (legacy : bool) :
  Tree c = ∅ -> parseVersion c legacy = (if legacy then 1%Z else 2%Z, None).
Proof. intros Hempty. unfold parseVersion. by rewrite Hempty. Qed.

(** X10: Without a path [build] fails at once, whatever the host holds. *)
Theorem build_empty_path (b : builder) :
  path b = "" -> build b = Returns (inl (ErrorString "config path is empty")).
Proof. intros Hpath. unfold build. by rewrite bool_decide_eq_true_2. Qed.

(** X11: An error of [loadConfig] comes out of [build] wrapped. *)
Theorem build_load_error (b : builder) (err : error) :
  path b <> "" ->
  (loadConfig (path b)).2 = Returns (inl err) ->
  build b = Returns (inl (ErrorWrap "failed to load config" err)).
Proof.
  intros Hpath Hload. unfold build. rewrite bool_decide_eq_false_2 by done.
  by rewrite Hload.
Qed.

(** X12: The [version] a document states decides the engine, whatever
    [useLegacyConfig] says: 1 gives the V1 engine, 2 the V2 engine, and
    any other integer is refused. The engine holds the document as loaded. *)
Theorem build_versioned_document (b : builder) (t : toml.Tree) (v : Z) :
  path b <> "" ->
  (loadConfig (path b)).2 = Returns (inr (newConfig t)) ->
  Get "version" t = Some (VInt v) ->
  build b
  = Returns (if bool_decide (v = 1%Z) then inr (ConfigV1 (configured b t))
             else if bool_decide (v = 2%Z) then inr (ConfigV2 (configured b t))
             else inl (ErrorValue "unsupported config version" (VInt v))).
Proof.
  intros Hpath Hload Hversion. unfold build. rewrite bool_decide_eq_false_2 by done.
  rewrite Hload. unfold parseVersion. cbn [Tree newConfig]. rewrite Hversion.
  destruct v as [|[[p|p|]|[p|p|]|]|p]; reflexivity.
Qed.

(** X13: A [version] that is not an integer makes [build] fail, with the
    error of [parseVersion] wrapped. *)
Theorem build_bad_version (b : builder) (t : toml.Tree) (x : value) :
  path b <> "" ->
  (loadConfig (path b)).2 = Returns (inr (newConfig t)) ->
  Get "version" t = Some x ->
  (forall v, x <> VInt v) ->
  build b
  = Returns (inl (ErrorWrap "failed to parse config version"
                    (ErrorValue "unsupported type for version field" x))).
Proof.
  intros Hpath Hload Hversion Hx. unfold build. rewrite bool_decide_eq_false_2 by done.
  rewrite Hload. unfold parseVersion. cbn [Tree newConfig]. rewrite Hversion.
  destruct x; try reflexivity. by destruct (Hx z).
Qed.

(** X14: A document with no [version]: the empty one gives the V2 engine, or
    the V1 engine for a legacy config; one with any content gives the V1
    engine. *)
Theorem build_unversioned_document (b : builder) (t : toml.Tree) :
  path b <> "" ->
  (loadConfig (path b)).2 = Returns (inr (newConfig t)) ->
  Get "version" t = None ->
  build b
  = Returns (inr (if bool_decide (t = ∅) then
                    if useLegacyConfig b then ConfigV1 (configured b t)
                    else ConfigV2 (configured b t)
                  else ConfigV1 (configured b t))).
Proof.
  intros Hpath Hload Hversion. unfold build. rewrite bool_decide_eq_false_2 by done.
  rewrite Hload. unfold parseVersion. cbn [Tree newConfig]. rewrite Hversion.
  destruct (bool_decide_reflect (t = ∅)) as [Hempty|Hempty].
  - apply Keys_nil in Hempty as ->. simpl. by destruct (useLegacyConfig b).
  - destruct (Keys t) eqn:Hkeys; [by apply Keys_nil in Hkeys|]. reflexivity.
Qed.

(** X15: The engine [build] returns agrees with the version [parseVersion]
    detects in the engine's own document, and its runtime type is never
    empty. *)
Theorem build_engine_matches_version (b : builder) (engine : Interface) :
  build b = Returns (inr engine) ->
  match engine with
  | ConfigV1 c =>
      parseVersion c (useLegacyConfig b) = (1%Z, None)
      /\ RuntimeType c <> "" /\ UseDefaultRuntimeName c = negb (useLegacyConfig b)
  | ConfigV2 c =>
      parseVersion c (useLegacyConfig b) = (2%Z, None)
      /\ RuntimeType c <> "" /\ UseDefaultRuntimeName c = negb (useLegacyConfig b)
  end.
Proof.
  unfold build. destruct (bool_decide (path b = "")); [done|].
  destruct ((loadConfig (path b)).2) as [[err|c0]|]; [done| |done].
  set (c := {| Tree := Tree c0; RuntimeType := _; UseDefaultRuntimeName := _ |}).
  assert (RuntimeType c <> "") as Htype.
  { subst c. cbn [RuntimeType]. by case_bool_decide. }
  destruct (parseVersion c (useLegacyConfig b)) as [v [e|]] eqn:Hversion;
    destruct v as [|[[p|p|]|[p|p|]|]|p]; intros Heq; try discriminate Heq.
  all: injection Heq as <-; by split_and!.
Qed.

(** X16: On a host where the config file does not exist yet, and [/dev/null]
    reads as the empty document, [build] gives an engine over the empty
    document: V2, or V1 for a legacy config. *)
Theorem build_fresh_host (b : builder) :
  path b <> "" ->
  Stat (path b) = (None, Some os.ENOENT) ->
  LoadFile "/dev/null" = inr ∅ ->
  build b
  = Returns (inr (if useLegacyConfig b then ConfigV1 (configured b ∅)
                  else ConfigV2 (configured b ∅))).
Proof.
  intros Hpath Hstat Hnull.
  rewrite (build_loaded b ∅); [|done|].
  - rewrite parseVersion_empty by done. by destruct (useLegacyConfig b).
  - unfold loadConfig, isExistingDir. rewrite Hstat. simpl. by rewrite Hnull.
Qed.

(** X17: [useLegacyConfig] matters to [parseVersion] for the empty document
    only. *)
Theorem parseVersion_legacy_only_when_empty (c : Config) :
  Tree c <> ∅ -> parseVersion c true = parseVersion c false.
Proof.
  intros Hne. unfold parseVersion.
  destruct (Get "version" (Tree c)) as [[]|]; try reflexivity.
  destruct (Keys (Tree c)) eqn:Hkeys; [by apply Keys_nil in Hkeys|]. reflexivity.
Qed.

(** X18: When [os.Stat] fails, only a file that does not exist is replaced by
    [/dev/null]; after any other failure [loadConfig] still hands the path
    itself to the TOML loader. *)
Theorem loadConfig_stat_failure (config : string) (errno : os.Errno) :
  Stat config = (None, Some errno) ->
  os.IsExist (Some errno) = false ->
  (loadConfig config).2
  = Returns (match LoadFile (match errno with os.ENOENT => "/dev/null" | _ => config end) with
             | inl err => inl err
             | inr tomlConfig => inr (newConfig tomlConfig)
             end).
Proof.
  intros Hstat Hexist. unfold loadConfig, isExistingDir. rewrite Hstat.
  cbn [fst snd]. rewrite Hexist.
  destruct errno; try discriminate; simpl.
  all: match goal with |- context [LoadFile ?f] => by destruct (LoadFile f) end.
Qed.

End Engine.


Import doubles.

Lemma no_path_given :
  @build (hostWith ∅) {| path := ""; runtimeType := "runc"; useLegacyConfig := false |}
  = Returns (inl (ErrorString "config path is empty")).
Proof. apply (@build_empty_path (hostWith ∅)). reflexivity. Defined.

Lemma unparsable_config_file :
  @build hostWithGarbage (builderFor false)
  = Returns (inl (ErrorWrap "failed to load config" (ErrorString "toml: parse error"))).
Proof.
  apply (@build_load_error hostWithGarbage (builderFor false)).
  - discriminate.
  - reflexivity.
Defined.

Lemma version_1_document_for_a_modern_builder :
  @build (hostWith {[ configPath := {[ "version" := VInt 1 ]} ]}) (builderFor false)
  = Returns (inr (ConfigV1 {| Tree := {[ "version" := VInt 1 ]};
                              RuntimeType := "io.containerd.runc.v2";
                              UseDefaultRuntimeName := true |})).
Proof.
  apply (@build_versioned_document (hostWith {[ configPath := {[ "version" := VInt 1 ]} ]})
           (builderFor false) {[ "version" := VInt 1 ]} 1).
  - discriminate.
  - vm_compute. reflexivity.
  - reflexivity.
Defined.

Lemma version_written_as_a_string :
  @build (hostWith {[ configPath := {[ "version" := VString "2" ]} ]}) (builderFor false)
  = Returns (inl (ErrorWrap "failed to parse config version"
                    (ErrorValue "unsupported type for version field" (VString "2")))).
Proof.
  apply (@build_bad_version (hostWith {[ configPath := {[ "version" := VString "2" ]} ]})
           (builderFor false) {[ "version" := VString "2" ]} (VString "2")).
  - discriminate.
  - vm_compute. reflexivity.
  - reflexivity.
  - discriminate.
Defined.

Lemma unversioned_document_with_content :
  @build (hostWith {[ configPath := {[ "root" := VString "/var/lib/containerd" ]} ]})
    (builderFor false)
  = Returns (inr (ConfigV1 {| Tree := {[ "root" := VString "/var/lib/containerd" ]};
                              RuntimeType := "io.containerd.runc.v2";
                              UseDefaultRuntimeName := true |})).
Proof.
  rewrite (@build_unversioned_document
             (hostWith {[ configPath := {[ "root" := VString "/var/lib/containerd" ]} ]})
             (builderFor false) {[ "root" := VString "/var/lib/containerd" ]}).
  - rewrite bool_decide_eq_false_2 by apply map_non_empty_singleton. reflexivity.
  - discriminate.
  - vm_compute. reflexivity.
  - reflexivity.
Defined.

Lemma version_2_engine_detects_version_2 :
  @parseVersion {| Tree := {[ "version" := VInt 2 ]}; RuntimeType := "io.containerd.runc.v2";
                   UseDefaultRuntimeName := false |} true
  = (2%Z, None)
  /\ "io.containerd.runc.v2" <> ""
  /\ false = negb true.
Proof.
  apply (@build_engine_matches_version (hostWith {[ configPath := {[ "version" := VInt 2 ]} ]})
           (builderFor true)
           (ConfigV2 {| Tree := {[ "version" := VInt 2 ]};
                        RuntimeType := "io.containerd.runc.v2";
                        UseDefaultRuntimeName := false |})).
  vm_compute. reflexivity.
Defined.

Lemma first_run_of_a_legacy_builder :
  @build (hostWith ∅) (builderFor true)
  = Returns (inr (ConfigV1 {| Tree := ∅; RuntimeType := "io.containerd.runc.v2";
                              UseDefaultRuntimeName := false |})).
Proof.
  apply (@build_fresh_host (hostWith ∅) (builderFor true)).
  - discriminate.
  - reflexivity.
  - reflexivity.
Defined.

Lemma legacy_flag_on_a_version_2_document :
  parseVersion {| Tree := {[ "version" := VInt 2 ]}; RuntimeType := "";
                  UseDefaultRuntimeName := false |} true
  = parseVersion {| Tree := {[ "version" := VInt 2 ]}; RuntimeType := "";
                    UseDefaultRuntimeName := false |} false.
Proof.
  apply (parseVersion_legacy_only_when_empty
           {| Tree := {[ "version" := VInt 2 ]}; RuntimeType := "";
              UseDefaultRuntimeName := false |}).
  apply insert_non_empty.
Defined.

Lemma missing_config_file :
  (@loadConfig (hostWith ∅) configPath).2 = Returns (inr (newConfig ∅)).
Proof.
  rewrite (@loadConfig_stat_failure (hostWith ∅) configPath os.ENOENT) by reflexivity.
  reflexivity.
Defined.

End containerd_more.
